(** * FisherFiles: image captioning helper ([openai/caption.py])

    A shallow embedding of the two functions of [caption.py]:
    [_file_to_data_url], which turns an image file into a
    [data:<mime>;base64,<payload>] URL, and [caption], which resolves an
    API key, encodes the image, sends one request to the remote model and
    returns the trimmed text of the answer.

    The Python standard library calls the code makes ([base64.b64encode],
    [str.strip], [str.startswith]) are written out.  What a call finds
    outside the program is its [World]: the process environment, the file
    system, the answers of [mimetypes.guess_type], [Path.expanduser] and
    [Path.resolve] on this host, and the remote endpoint.  Every access to
    the world is recorded in a trace of events, so that the order of the
    effects of a call can be stated. *)

From Stdlib Require Import NArith ZArith List String Ascii Bool Lia.
From Stdlib.Strings Require Import Byte.
From stdpp Require Import gmap strings.
Import ListNotations.

Local Open Scope string_scope.
Local Open Scope list_scope.

(** Division and remainder by constants are handed to [lia]. *)
Ltac Zify.zify_post_hook ::= Z.to_euclidean_division_equations.

(* ------------------------------------------------------------------ *)
(** ** [base64.b64encode] (RFC 4648, standard alphabet, with padding)  *)
(* ------------------------------------------------------------------ *)

Module Base64.

(** The 64 characters of the standard alphabet, in table order. *)
Definition alphabet : list byte :=
  list_byte_of_string
    "ABCDEFGHIJKLMNOPQRSTUVWXYZabcdefghijklmnopqrstuvwxyz0123456789+/".

(** The padding character [=]. *)
Definition pad : byte := "="%byte.

(** Table lookup: the character that stands for a 6-bit value. *)
Definition b64char (n : N) : byte := nth (N.to_nat n) alphabet pad.

(** Position of a character in a table, counted from [i]. *)
Fixpoint index_from (i : N) (c : byte) (tbl : list byte) : option N :=
  match tbl with
  | [] => None
  | d :: tbl' => if Byte.eqb c d then Some i else index_from (N.succ i) c tbl'
  end.

(** The 6-bit value of an alphabet character; [None] outside the alphabet. *)
Definition b64val (c : byte) : option N := index_from 0%N c alphabet.

(** A number below 256 as a byte. *)
Definition byte_of (n : N) : byte :=
  match Byte.of_N (n mod 256) with
  | Some b => b
  | None => x00
  end.

(** The four characters of a full group of three bytes: the 24 bits
    [x * 2^16 + y * 2^8 + z] cut into four 6-bit values. *)
Definition encode3 (a b c : byte) : list byte :=
  let n := (Byte.to_N a * 65536 + Byte.to_N b * 256 + Byte.to_N c)%N in
  [ b64char (n / 262144);
    b64char ((n / 4096) mod 64);
    b64char ((n / 64) mod 64);
    b64char (n mod 64) ].

(** A trailing group of two bytes: three characters and one pad. *)
Definition encode2 (a b : byte) : list byte :=
  let n := (Byte.to_N a * 256 + Byte.to_N b)%N in
  [ b64char (n / 1024);
    b64char ((n / 16) mod 64);
    b64char ((n mod 16) * 4);
    pad ].

(** A trailing group of one byte: two characters and two pads. *)
Definition encode1 (a : byte) : list byte :=
  let n := Byte.to_N a in
  [ b64char (n / 4);
    b64char ((n mod 4) * 16);
    pad;
    pad ].

(** [base64.b64encode(s)]: bytes in, bytes out. *)
Fixpoint b64encode (bs : list byte) : list byte :=
  match bs with
  | [] => []
  | [a] => encode1 a
  | [a; b] => encode2 a b
  | a :: b :: c :: rest => encode3 a b c ++ b64encode rest
  end.

(** The three bytes four 6-bit values stand for. *)
Definition decode3 (v1 v2 v3 v4 : N) : list byte :=
  let n := (v1 * 262144 + v2 * 4096 + v3 * 64 + v4)%N in
  [ byte_of (n / 65536); byte_of ((n / 256) mod 256); byte_of (n mod 256) ].

Definition decode2 (v1 v2 v3 : N) : list byte :=
  let n := (v1 * 4096 + v2 * 64 + v3)%N in
  [ byte_of (n / 1024); byte_of ((n / 4) mod 256) ].

Definition decode1 (v1 v2 : N) : list byte :=
  let n := (v1 * 64 + v2)%N in
  [ byte_of (n / 16) ].

Definition is_nil {A} (l : list A) : bool :=
  match l with [] => true | _ => false end.

(** A strict base64 decoder: the input is a sequence of groups of four
    characters of the alphabet, the last of which may end in one or two
    pads.  Anything else is rejected. *)
Fixpoint b64decode (cs : list byte) : option (list byte) :=
  match cs with
  | [] => Some []
  | c1 :: c2 :: c3 :: c4 :: rest =>
      match b64val c1, b64val c2 with
      | Some v1, Some v2 =>
          match b64val c3, b64val c4 with
          | Some v3, Some v4 =>
              match b64decode rest with
              | Some bs => Some (decode3 v1 v2 v3 v4 ++ bs)
              | None => None
              end
          | Some v3, None =>
              if Byte.eqb c4 pad && is_nil rest
              then Some (decode2 v1 v2 v3) else None
          | None, _ =>
              if Byte.eqb c3 pad && Byte.eqb c4 pad && is_nil rest
              then Some (decode1 v1 v2) else None
          end
      | _, _ => None
      end
  | _ => None
  end.

(** Membership in the output alphabet of the encoder. *)
Definition is_b64 (c : byte) : bool :=
  match b64val c with
  | Some _ => true
  | None => Byte.eqb c pad
  end.

(** The 6-bit values, listed. *)
Definition sextets : list N := map N.of_nat (seq 0 64).

End Base64.


(* ------------------------------------------------------------------ *)
(** ** Python values the code handles                                   *)
(* ------------------------------------------------------------------ *)

(** A Python [str] is a [string] whose characters are the code points
    below 256; a [bytes] object is a [list byte]; an [int] is a [Z]. *)

Module Py.

(** [str.isspace] on one character, for the code points below 256:
    TAB, LF, VT, FF, CR, the separators FS, GS, RS, US, the space, NEL
    and the no-break space. *)
Definition isspace (c : ascii) : bool :=
  let n := N_of_ascii c in
  ((9 <=? n) && (n <=? 13) || (28 <=? n) && (n <=? 32)
   || (n =? 133) || (n =? 160))%N.

(** [s.lstrip()]. *)
Fixpoint lstrip (s : string) : string :=
  match s with
  | EmptyString => EmptyString
  | String c s' => if isspace c then lstrip s' else s
  end.

(** [s.rstrip()]. *)
Fixpoint rstrip (s : string) : string :=
  match s with
  | EmptyString => EmptyString
  | String c s' =>
      match rstrip s' with
      | EmptyString => if isspace c then EmptyString else String c EmptyString
      | r => String c r
      end
  end.

(** [s.strip()]: the whitespace at both ends is dropped. *)
Definition strip (s : string) : string := rstrip (lstrip s).

(** [s.startswith(p)]. *)
Definition startswith (s p : string) : bool := String.prefix p s.

(** Truth value of a [str | None]: [None] and the empty string are false. *)
Definition truthy (v : option string) : bool :=
  match v with
  | Some (String _ _) => true
  | _ => false
  end.

(** Every character of [s] is whitespace. *)
Fixpoint all_space (s : string) : bool :=
  match s with
  | EmptyString => true
  | String c s' => isspace c && all_space s'
  end.

(** The first character of [s] is whitespace. *)
Definition starts_with_space (s : string) : bool :=
  match s with
  | EmptyString => false
  | String c _ => isspace c
  end.

(** The last character of [s] is whitespace. *)
Fixpoint ends_with_space (s : string) : bool :=
  match s with
  | EmptyString => false
  | String c EmptyString => isspace c
  | String _ s' => ends_with_space s'
  end.

End Py.

(** What a call can raise. *)
Inductive Exception : Type :=
| FileNotFoundError (msg : string)
| IsADirectoryError (msg : string)
| RuntimeError (msg : string)
| UnicodeDecodeError
| OpenAIError (msg : string).

(** The parts of a message: the dictionaries
    [{"type": "input_text", "text": ...}] and
    [{"type": "input_image", "image_url": ...}]. *)
Inductive ContentPart : Type :=
| input_text (text : string)
| input_image (image_url : string).

(** One entry of [input]: [{"role": ..., "content": [...]}]. *)
Record Message : Type := mkMessage {
  role : string;
  content : list ContentPart
}.

(** The keyword arguments of [client.responses.create]. *)
Record Request : Type := mkRequest {
  req_model : string;
  req_input : list Message;
  req_max_output_tokens : Z
}.

(** What the code reads of the answer: [resp.output_text]. *)
Record Response : Type := mkResponse {
  output_text : option string
}.

(** The client object: it holds the key it was built with. *)
Record Client : Type := mkClient {
  client_api_key : string
}.

(** What a path names on disk. *)
Inductive Node : Type :=
| RegularFile (data : list byte)
| Directory.

(** Every access to the world, in the order it happens. *)
Inductive Event : Type :=
| EnvGet (name : string)
| ClientInit (api_key : string)
| PathExpandUser (p : string)
| PathResolve (p : string)
| PathExists (p : string)
| PathIsFile (p : string)
| GuessType (url : string)
| PathReadBytes (p : string)
| ResponsesCreate (api_key : string) (r : Request).

(** The world a call runs in. *)
Record World : Type := mkWorld {
  (** [os.environ] *)
  environ : gmap string string;
  (** the file system, by path *)
  files : gmap string Node;
  (** [mimetypes.guess_type]: the pair (type, encoding) *)
  guess_type : string -> option string * option string;
  (** [Path.expanduser] and [Path.resolve], on the string of the path *)
  expanduser : string -> string;
  resolve : string -> string;
  (** the remote endpoint: what [responses.create] returns or raises *)
  remote : string -> Request -> Exception + Response
}.

(* ------------------------------------------------------------------ *)
(** ** Computations: a world to read, a trace to extend, an exception   *)
(* ------------------------------------------------------------------ *)

Definition M (A : Type) : Type :=
  World -> list Event -> (Exception + A) * list Event.

Definition ret {A} (a : A) : M A := fun _ tr => (inr a, tr).

Definition raise {A} (e : Exception) : M A := fun _ tr => (inl e, tr).

Definition bind {A B} (m : M A) (k : A -> M B) : M B :=
  fun w tr =>
    match m w tr with
    | (inr a, tr') => k a w tr'
    | (inl e, tr') => (inl e, tr')
    end.

(** One access to the world: its event is logged, its answer returned. *)
Definition access {A} (ev : Event) (answer : World -> Exception + A) : M A :=
  fun w tr => (answer w, tr ++ [ev]).

Declare Scope py_scope.
Delimit Scope py_scope with py.
Notation "x <- m ;; k" := (bind m (fun x => k))
  (at level 100, m at next level, right associativity) : py_scope.
Notation "m ;;; k" := (bind m (fun _ => k))
  (at level 100, right associativity) : py_scope.
Local Open Scope py_scope.

(** A call from an empty trace. *)
Definition run {A} (m : M A) (w : World) : (Exception + A) * list Event :=
  m w [].

(** The requests a trace sent to the remote endpoint. *)
Fixpoint sent (tr : list Event) : list Request :=
  match tr with
  | [] => []
  | ResponsesCreate _ r :: tr' => r :: sent tr'
  | _ :: tr' => sent tr'
  end.

(** An event that touches the file system. *)
Definition is_file_io (ev : Event) : bool :=
  match ev with
  | PathResolve _ | PathExists _ | PathIsFile _ | PathReadBytes _ => true
  | _ => false
  end.

(** An event that reaches the network. *)
Definition is_network (ev : Event) : bool :=
  match ev with
  | ResponsesCreate _ _ => true
  | _ => false
  end.

(** An event that builds the client. *)
Definition is_client_init (ev : Event) : bool :=
  match ev with
  | ClientInit _ => true
  | _ => false
  end.

(* ------------------------------------------------------------------ *)
(** ** The library calls of [caption.py], as accesses to the world      *)
(* ------------------------------------------------------------------ *)

(** [os.environ.get(name)] *)
Definition os_environ_get (name : string) : M (option string) :=
  access (EnvGet name) (fun w => inr (environ w !! name)).

(** [AsyncOpenAI(api_key=...)]: the client keeps the key it is given; no
    request is sent.  Without a key the constructor looks in the
    environment itself and refuses to build a client when that fails. *)
Definition AsyncOpenAI (api_key : option string) : M Client :=
  match api_key with
  | Some k => access (ClientInit k) (fun _ => inr (mkClient k))
  | None =>
      v <- os_environ_get "OPENAI_API_KEY" ;;
      match v with
      | Some k => access (ClientInit k) (fun _ => inr (mkClient k))
      | None => raise (OpenAIError "The api_key client option must be set")
      end
  end.

(** [Path.expanduser()] and [Path.resolve()] *)
Definition Path_expanduser (p : string) : M string :=
  access (PathExpandUser p) (fun w => inr (expanduser w p)).

Definition Path_resolve (p : string) : M string :=
  access (PathResolve p) (fun w => inr (resolve w p)).

(** [Path.exists()] *)
Definition Path_exists (p : string) : M bool :=
  access (PathExists p)
    (fun w => inr match files w !! p with Some _ => true | None => false end).

(** [Path.is_file()] *)
Definition Path_is_file (p : string) : M bool :=
  access (PathIsFile p)
    (fun w => inr match files w !! p with
                  | Some (RegularFile _) => true
                  | _ => false
                  end).

(** [Path.read_bytes()] *)
Definition Path_read_bytes (p : string) : M (list byte) :=
  access (PathReadBytes p)
    (fun w => match files w !! p with
              | Some (RegularFile data) => inr data
              | Some Directory => inl (IsADirectoryError p)
              | None => inl (FileNotFoundError p)
              end).

(** [mimetypes.guess_type(url)] *)
Definition mimetypes_guess_type (url : string)
  : M (option string * option string) :=
  access (GuessType url) (fun w => inr (guess_type w url)).

(** [bytes.decode("utf-8")].  Bytes below 128 are the characters of the
    same code; longer sequences of UTF-8 are outside this model and are
    reported as an error ([b64encode_ascii] shows that the encoder never
    gets there). *)
Definition bytes_decode_utf8 (bs : list byte) : M string :=
  if forallb (fun b => Byte.to_N b <? 128)%N bs
  then ret (string_of_list_byte bs)
  else raise UnicodeDecodeError.

(** [await client.responses.create(model=..., input=..., max_output_tokens=...)] *)
Definition responses_create (client : Client) (model : string)
    (input : list Message) (max_output_tokens : Z) : M Response :=
  let r := mkRequest model input max_output_tokens in
  access (ResponsesCreate (client_api_key client) r)
         (fun w => remote w (client_api_key client) r).

(* ------------------------------------------------------------------ *)
(** ** [caption.py]                                                     *)
(* ------------------------------------------------------------------ *)

(** The MIME type the encoder settles on:
    [if mime_type is None or not mime_type.startswith("image/"): "image/png"]. *)
Definition mime_or_png (mime_type : option string) : string :=
  match mime_type with
  | None => "image/png"
  | Some m => if negb (Py.startswith m "image/") then "image/png" else m
  end.

(** [_file_to_data_url(image_path)] *)
Definition _file_to_data_url (image_path : string) : M string :=
  found <- Path_exists image_path ;;
  missing <- (if negb found then ret true
              else is_file <- Path_is_file image_path ;;
                   ret (negb is_file)) ;;
  if missing : bool
  then raise (FileNotFoundError ("Image not found: " ++ image_path)%string)
  else
    guess <- mimetypes_guess_type image_path ;;
    let mime_type := mime_or_png (fst guess) in
    data <- Path_read_bytes image_path ;;
    b64 <- bytes_decode_utf8 (Base64.b64encode data) ;;
    ret ("data:" ++ mime_type ++ ";base64," ++ b64)%string.

(** The defaults of the keyword parameters of [caption]. *)
Definition default_prompt : string :=
  "Write a concise, vivid caption for this image (1 sentence).".
Definition default_model : string := "gpt-4.1-mini".
Definition default_max_output_tokens : Z := 80.

(** [x or ""] on a [str | None]. *)
Definition or_empty (v : option string) : string :=
  match v with
  | Some (String c s) => String c s
  | _ => ""
  end.

(** [caption(image_path, prompt, model, max_output_tokens, api_key)] *)
Definition caption (image_path prompt model : string)
    (max_output_tokens : Z) (api_key : option string) : M string :=
  key <- (if Py.truthy api_key then ret api_key
          else os_environ_get "OPENAI_API_KEY") ;;
  if negb (Py.truthy key)
  then raise (RuntimeError
                "OPENAI_API_KEY is not set (and api_key was not provided).")
  else
    client <- AsyncOpenAI key ;;
    expanded <- Path_expanduser image_path ;;
    path <- Path_resolve expanded ;;
    data_url <- _file_to_data_url path ;;
    resp <- responses_create client model
              [ mkMessage "user"
                  [ input_text prompt; input_image data_url ] ]
              max_output_tokens ;;
    ret (Py.strip (or_empty (output_text resp))).

(* ------------------------------------------------------------------ *)
(** ** Observations on calls, used to state their properties            *)
(* ------------------------------------------------------------------ *)

(** The key [caption] ends up with: [api_key or os.environ.get(...)]. *)
Definition resolved_key (w : World) (api_key : option string) : option string :=
  if Py.truthy api_key then api_key else environ w !! "OPENAI_API_KEY".

(** The events of that: the environment is read only when the argument
    is no key. *)
Definition key_lookup (api_key : option string) : list Event :=
  if Py.truthy api_key then [] else [EnvGet "OPENAI_API_KEY"].

(** The request [caption] builds from its arguments and the data URL. *)
Definition caption_request (prompt model : string) (max_output_tokens : Z)
    (data_url : string) : Request :=
  {| req_model := model;
     req_input :=
       [ {| role := "user";
            content := [ input_text prompt; input_image data_url ] |} ];
     req_max_output_tokens := max_output_tokens |}.

(** The message of [RuntimeError] when no key is found. *)
Definition missing_key_message : string :=
  "OPENAI_API_KEY is not set (and api_key was not provided).".

(** The path [caption] hands to the encoder. *)
Definition normal_path (w : World) (image_path : string) : string :=
  resolve w (expanduser w image_path).

(** The path an event of the encoder names. *)
Definition encoder_path (ev : Event) : option string :=
  match ev with
  | PathExists p | PathIsFile p | GuessType p | PathReadBytes p => Some p
  | _ => None
  end.

(** The key an event uses as a credential. *)
Definition credential (ev : Event) : option string :=
  match ev with
  | ClientInit k | ResponsesCreate k _ => Some k
  | _ => None
  end.

(** A request with the text of its text parts replaced, and nothing else. *)
Definition set_text (t : string) (c : ContentPart) : ContentPart :=
  match c with
  | input_text _ => input_text t
  | input_image u => input_image u
  end.

Definition with_prompt (t : string) (r : Request) : Request :=
  {| req_model := req_model r;
     req_input :=
       map (fun m => {| role := role m;
                        content := map (set_text t) (content m) |})
           (req_input r);
     req_max_output_tokens := req_max_output_tokens r |}.

(** A request with its token limit replaced, and nothing else. *)
Definition with_max_output_tokens (n : Z) (r : Request) : Request :=
  {| req_model := req_model r;
     req_input := req_input r;
     req_max_output_tokens := n |}.

(* ------------------------------------------------------------------ *)
(** ** A host to run the code on                                        *)
(* ------------------------------------------------------------------ *)

(** A POSIX host without symbolic links and with a short table of file
    types, on which the two functions are evaluated in the examples. *)

Module Host.

(** The components of a path, cut at every [/]. *)
Fixpoint components (s : string) : list string :=
  match s with
  | EmptyString => [EmptyString]
  | String c s' =>
      if Ascii.eqb c "/"
      then EmptyString :: components s'
      else match components s' with
           | x :: xs => String c x :: xs
           | [] => [String c EmptyString]
           end
  end.

(** Empty and [.] components vanish, [..] leaves the directory it
    follows; the stack holds the path so far, innermost first. *)
Fixpoint normalize (stack : list string) (cs : list string) : list string :=
  match cs with
  | [] => rev stack
  | c :: cs' =>
      if String.eqb c "" || String.eqb c "." then normalize stack cs'
      else if String.eqb c ".." then normalize (tl stack) cs'
      else normalize (c :: stack) cs'
  end.

Fixpoint join (cs : list string) : string :=
  match cs with
  | [] => ""
  | c :: cs' => ("/" ++ c ++ join cs')%string
  end.

(** [Path.expanduser] for a user whose home directory is [home]: a
    leading [~] component is replaced. *)
Definition posix_expanduser (home : string) (p : string) : string :=
  match components p with
  | "~"%string :: rest =>
      (home ++ match rest with
               | [] => ""
               | _ => join rest
               end)%string
  | _ => p
  end.

(** [Path.resolve] for a process whose working directory is [cwd]. *)
Definition posix_resolve (cwd : string) (p : string) : string :=
  let absolute := if Py.startswith p "/" then p else (cwd ++ "/" ++ p)%string in
  match normalize [] (components absolute) with
  | [] => "/"
  | cs => join cs
  end.

(** [s.endswith(suffix)] *)
Definition endswith (s suffix : string) : bool :=
  let n := String.length s in
  let k := String.length suffix in
  (k <=? n)%nat && String.eqb (substring (n - k) k s) suffix.

(** A few rows of the table behind [mimetypes.guess_type]. *)
Definition sample_guess_type (url : string) : option string * option string :=
  if endswith url ".png" then (Some "image/png", None)
  else if endswith url ".jpg" then (Some "image/jpeg", None)
  else if endswith url ".webp" then (Some "image/webp", None)
  else if endswith url ".txt" then (Some "text/plain", None)
  else if endswith url ".tar.gz" then (Some "application/x-tar", Some "gzip")
  else (None, None).

(** A remote endpoint that answers every request with the same text. *)
Definition fixed_remote (text : option string)
  : string -> Request -> Exception + Response :=
  fun _ _ => inr (mkResponse text).

(** A remote endpoint that is never supposed to be reached. *)
Definition failing_remote : string -> Request -> Exception + Response :=
  fun _ _ => inl (OpenAIError "Connection error.").

(** The first bytes of a PNG file. *)
Definition png_bytes : list byte :=
  [x89; x50; x4e; x47; x0d; x0a; x1a; x0a].

(** The files of the host. *)
Definition sample_files : gmap string Node :=
  <[ "/home/ann/pics/cat.jpg" := RegularFile [xff; xd8; xff; xe0; x00] ]>
  (<[ "/home/ann/pics/scan.png" := RegularFile png_bytes ]>
  (<[ "/home/ann/pics/notes.txt" := RegularFile [x68; x69] ]>
  (<[ "/home/ann/pics/raw" := RegularFile [x00; x01; x02; x03] ]>
  (<[ "/home/ann/pics" := Directory ]> ∅)))).

(** The host, given its environment and the remote endpoint. *)
Definition world (env : gmap string string)
    (endpoint : string -> Request -> Exception + Response) : World :=
  {| environ := env;
     files := sample_files;
     guess_type := sample_guess_type;
     expanduser := posix_expanduser "/home/ann";
     resolve := posix_resolve "/home/ann/pics";
     remote := endpoint |}.

Definition with_key : gmap string string := <[ "OPENAI_API_KEY" := "sk-env" ]> ∅.
Definition with_empty_key : gmap string string := <[ "OPENAI_API_KEY" := "" ]> ∅.
Definition without_key : gmap string string := <[ "HOME" := "/home/ann" ]> ∅.

(** The host with a key in the environment and no network. *)
Definition offline : World := world with_key failing_remote.

(** The host with a key in the environment and an endpoint that answers
    [text]. *)
Definition answering (text : option string) : World :=
  world with_key (fixed_remote text).

End Host.

(* ------------------------------------------------------------------ *)
(** ** The rest of the module: [load_dotenv()] and [main]               *)
(* ------------------------------------------------------------------ *)

(** A world with another environment. *)
Definition with_environ (env : gmap string string) (w : World) : World :=
  {| environ := env;
     files := files w;
     guess_type := guess_type w;
     expanduser := expanduser w;
     resolve := resolve w;
     remote := remote w |}.

(** [load_dotenv()], called when the module is imported: the variables
    of the [.env] file ([dotenv] is what the file assigns, the empty map
    when there is no file) are put into [os.environ], except those that
    are set there already, which keep their value. *)
Definition load_dotenv (dotenv : gmap string string) (w : World) : World :=
  with_environ (environ w ∪ dotenv) w.

(** The line feed [print] ends its output with. *)
Definition newline : string := String (ascii_of_nat 10) EmptyString.

(** [print(s)]: [s] and a line feed are written to standard output. *)
Definition print (s : string) (stdout : string) : string :=
  (stdout ++ s ++ newline)%string.

(** [main()]: [print(await caption("soccer.webp"))].  The result is the
    outcome, the trace of the call, and standard output. *)
Definition main (w : World) (stdout : string)
  : (Exception + unit) * list Event * string :=
  match run (caption "soccer.webp" default_prompt default_model
               default_max_output_tokens None) w with
  | (inr text, tr) => (inr tt, tr, print text stdout)
  | (inl e, tr) => (inl e, tr, stdout)
  end.

(** The module run as a script: the import, with its [load_dotenv()],
    then [asyncio.run(main())]. *)
Definition script (dotenv : gmap string string) (w : World) (stdout : string)
  : (Exception + unit) * list Event * string :=
  main (load_dotenv dotenv w) stdout.

(** The number of events of a trace that satisfy a test. *)
Definition count_events (f : Event -> bool) (tr : list Event) : nat :=
  List.length (List.filter f tr).


(** The event that reads the bytes of a file. *)
Definition is_read_bytes (ev : Event) : bool :=
  match ev with
  | PathReadBytes _ => true
  | _ => false
  end.

(** A second host, for the demonstration: the working directory holds
    [soccer.webp]. *)
Module Pitch.

Definition webp_bytes : list byte :=
  [x52; x49; x46; x46; x1a; x00; x00; x00; x57; x45; x42; x50].

Definition pitch_files : gmap string Node :=
  <[ "/srv/app/soccer.webp" := RegularFile webp_bytes ]>
  (<[ "/srv/app" := Directory ]> ∅).

Definition world (env : gmap string string)
    (endpoint : string -> Request -> Exception + Response) : World :=
  {| environ := env;
     files := pitch_files;
     guess_type := Host.sample_guess_type;
     expanduser := Host.posix_expanduser "/home/ann";
     resolve := Host.posix_resolve "/srv/app";
     remote := endpoint |}.

(** An endpoint that refuses every request. *)
Definition rate_limited : string -> Request -> Exception + Response :=
  fun _ _ => inl (OpenAIError "Rate limit reached.").

(** A [.env] file with a key. *)
Definition dotenv_key : gmap string string :=
  <[ "OPENAI_API_KEY" := "sk-dotenv" ]> ∅.

End Pitch.

(* ------------------------------------------------------------------ *)
(** ** Facts about the base64 tables                                   *)
(* ------------------------------------------------------------------ *)

Section Base64Facts.
Import Base64.

(** Induction in steps of three, following the recursion of [b64encode]. *)
Lemma list_ind_by3 {A} (P : list A -> Prop) :
  P [] -> (forall a, P [a]) -> (forall a b, P [a; b]) ->
  (forall a b c l, P l -> P (a :: b :: c :: l)) ->
  forall l, P l.
Proof.
  intros H0 H1 H2 H3.
  fix IH 1.
  intros [|a [|b [|c l]]]; [exact H0 | apply H1 | apply H2 | apply H3, IH].
Qed.

Lemma sextets_complete (n : N) : (n < 64)%N -> In n sextets.
Proof.
  intros Hn. unfold sextets.
  apply in_map_iff. exists (N.to_nat n). split; [lia|].
  apply in_seq. lia.
Qed.

Lemma b64val_b64char_all :
  forallb (fun n => match b64val (b64char n) with
                    | Some m => N.eqb m n
                    | None => false
                    end) sextets = true.
Proof. vm_compute. reflexivity. Qed.

(** Looking a 6-bit value up in the table and back gives the value. *)
Lemma b64val_b64char (n : N) : (n < 64)%N -> b64val (b64char n) = Some n.
Proof.
  intros Hn.
  pose proof (proj1 (forallb_forall _ _) b64val_b64char_all n
                (sextets_complete n Hn)) as H.
  simpl in H.
  destruct (b64val (b64char n)) as [m|]; [|discriminate].
  apply N.eqb_eq in H. now subst.
Qed.

Lemma b64val_pad : b64val pad = None.
Proof. reflexivity. Qed.

Lemma byte_of_to_N (b : byte) : byte_of (Byte.to_N b) = b.
Proof.
  unfold byte_of.
  pose proof (Byte.to_N_bounded b) as Hb.
  rewrite N.mod_small by lia.
  now rewrite Byte.of_to_N.
Qed.

Lemma byte_of_eq (n : N) (b : byte) : n = Byte.to_N b -> byte_of n = b.
Proof. intros ->. apply byte_of_to_N. Qed.

Lemma b64decode_full (v1 v2 v3 v4 : N) (rest : list byte) :
  (v1 < 64)%N -> (v2 < 64)%N -> (v3 < 64)%N -> (v4 < 64)%N ->
  b64decode (b64char v1 :: b64char v2 :: b64char v3 :: b64char v4 :: rest) =
  match b64decode rest with
  | Some bs => Some (decode3 v1 v2 v3 v4 ++ bs)
  | None => None
  end.
Proof.
  intros H1 H2 H3 H4. cbn [b64decode].
  now rewrite !b64val_b64char by assumption.
Qed.

Lemma b64decode_pad1 (v1 v2 v3 : N) :
  (v1 < 64)%N -> (v2 < 64)%N -> (v3 < 64)%N ->
  b64decode [b64char v1; b64char v2; b64char v3; pad] =
  Some (decode2 v1 v2 v3).
Proof.
  intros H1 H2 H3. cbn [b64decode].
  rewrite !b64val_b64char by assumption. now rewrite b64val_pad.
Qed.

Lemma b64decode_pad2 (v1 v2 : N) :
  (v1 < 64)%N -> (v2 < 64)%N ->
  b64decode [b64char v1; b64char v2; pad; pad] = Some (decode1 v1 v2).
Proof.
  intros H1 H2. cbn [b64decode].
  rewrite !b64val_b64char by assumption. now rewrite b64val_pad.
Qed.

(** One full group decodes to the three bytes it was made of. *)
Lemma decode_encode3 (a b c : byte) (rest : list byte) :
  b64decode (encode3 a b c ++ rest) =
  match b64decode rest with
  | Some bs => Some (a :: b :: c :: bs)
  | None => None
  end.
Proof.
  pose proof (Byte.to_N_bounded a) as Ha.
  pose proof (Byte.to_N_bounded b) as Hb.
  pose proof (Byte.to_N_bounded c) as Hc.
  unfold encode3. cbn [app].
  rewrite b64decode_full by lia.
  destruct (b64decode rest) as [bs|]; [|reflexivity].
  unfold decode3. cbn [app]. f_equal.
  f_equal; [|f_equal; [|f_equal]]; apply byte_of_eq; lia.
Qed.

Lemma decode_encode2 (a b : byte) : b64decode (encode2 a b) = Some [a; b].
Proof.
  pose proof (Byte.to_N_bounded a) as Ha.
  pose proof (Byte.to_N_bounded b) as Hb.
  unfold encode2. rewrite b64decode_pad1 by lia.
  unfold decode2. f_equal.
  f_equal; [|f_equal]; apply byte_of_eq; lia.
Qed.

Lemma decode_encode1 (a : byte) : b64decode (encode1 a) = Some [a].
Proof.
  pose proof (Byte.to_N_bounded a) as Ha.
  unfold encode1. rewrite b64decode_pad2 by lia.
  unfold decode1. f_equal.
  f_equal; apply byte_of_eq; lia.
Qed.

(** Decoding undoes encoding, for every sequence of bytes. *)
Lemma b64decode_b64encode (bs : list byte) :
  b64decode (b64encode bs) = Some bs.
Proof.
  induction bs as [|a|a b|a b c l IH] using list_ind_by3.
  - reflexivity.
  - apply decode_encode1.
  - apply decode_encode2.
  - change (b64encode (a :: b :: c :: l))
      with (encode3 a b c ++ b64encode l).
    now rewrite decode_encode3, IH.
Qed.

End Base64Facts.

(* ------------------------------------------------------------------ *)
(** ** The output alphabet of the encoder                               *)
(* ------------------------------------------------------------------ *)

Section Base64Alphabet.
Import Base64.

(** Whatever the index, the table lookup lands in the table or on the
    default, the pad. *)
Lemma b64char_table (n : N) : In (b64char n) (pad :: alphabet).
Proof.
  unfold b64char.
  destruct (nth_in_or_default (N.to_nat n) alphabet pad) as [H|H].
  - right. exact H.
  - left. now rewrite H.
Qed.

(** A test that accepts the 65 characters accepts every output. *)
Lemma b64encode_forallb (f : byte -> bool) :
  forallb f (pad :: alphabet) = true ->
  forall bs, forallb f (b64encode bs) = true.
Proof.
  intros Hf.
  assert (Hc : forall n, f (b64char n) = true).
  { intro n. exact (proj1 (forallb_forall _ _) Hf _ (b64char_table n)). }
  assert (Hp : f pad = true).
  { apply (proj1 (forallb_forall _ _) Hf). now left. }
  induction bs as [|a|a b|a b c l IH] using list_ind_by3.
  - reflexivity.
  - unfold b64encode, encode1. cbn [forallb]. now rewrite !Hc, Hp.
  - unfold b64encode, encode2. cbn [forallb]. now rewrite !Hc, Hp.
  - change (b64encode (a :: b :: c :: l))
      with (encode3 a b c ++ b64encode l).
    rewrite forallb_app, IH. unfold encode3. cbn [forallb].
    now rewrite !Hc.
Qed.

(** The output is made of the alphabet and the pad. *)
Lemma b64encode_is_b64 (bs : list byte) :
  forallb is_b64 (b64encode bs) = true.
Proof. apply b64encode_forallb. vm_compute. reflexivity. Qed.

(** The output is ASCII. *)
Lemma b64encode_ascii (bs : list byte) :
  forallb (fun b => Byte.to_N b <? 128)%N (b64encode bs) = true.
Proof. apply b64encode_forallb. vm_compute. reflexivity. Qed.

End Base64Alphabet.

(* ------------------------------------------------------------------ *)
(** ** [str.strip]                                                      *)
(* ------------------------------------------------------------------ *)

Section Strip.
Import Py.

Lemma append_cons (c : ascii) (s t : string) :
  (String c s ++ t)%string = String c (s ++ t)%string.
Proof. reflexivity. Qed.

Lemma append_nil_l (t : string) : ("" ++ t)%string = t.
Proof. reflexivity. Qed.

Lemma append_nil_r (s : string) : (s ++ "")%string = s.
Proof.
  induction s as [|c s IH]; [reflexivity|].
  now rewrite append_cons, IH.
Qed.

Lemma append_assoc (s t u : string) :
  ((s ++ t) ++ u)%string = (s ++ (t ++ u))%string.
Proof.
  induction s as [|c s IH]; [reflexivity|].
  now rewrite !append_cons, IH.
Qed.

(** [lstrip] cuts off a prefix of whitespace, and all of it. *)
Lemma lstrip_split (s : string) :
  exists l, s = (l ++ lstrip s)%string /\ all_space l = true /\
            starts_with_space (lstrip s) = false.
Proof.
  induction s as [|c s (l & Hs & Hl & Hh)].
  - exists ""%string. now repeat split.
  - cbn [lstrip]. destruct (isspace c) eqn:Hc.
    + exists (String c l). rewrite append_cons, <- Hs.
      cbn [all_space]. now rewrite Hc, Hl.
    + exists ""%string. cbn [starts_with_space]. now repeat split.
Qed.

(** [rstrip] cuts off a suffix of whitespace, and all of it. *)
Lemma rstrip_split (s : string) :
  exists r, s = (rstrip s ++ r)%string /\ all_space r = true /\
            ends_with_space (rstrip s) = false.
Proof.
  induction s as [|c s (r & Hs & Hr & He)].
  - exists ""%string. now repeat split.
  - cbn [rstrip]. destruct (rstrip s) as [|a t] eqn:Hrs.
    + rewrite append_nil_l in Hs. subst r.
      destruct (isspace c) eqn:Hc.
      * exists (String c s). rewrite append_nil_l.
        cbn [all_space]. now rewrite Hc, Hr.
      * exists s. rewrite append_cons, append_nil_l.
        cbn [ends_with_space]. now repeat split.
    + exists r. rewrite append_cons, <- Hs.
      repeat split; [exact Hr|]. exact He.
Qed.

(** [rstrip] leaves the first character where it is. *)
Lemma rstrip_head (s : string) :
  starts_with_space s = false -> starts_with_space (rstrip s) = false.
Proof.
  destruct s as [|c s]; [reflexivity|].
  cbn [starts_with_space rstrip]. intros Hc.
  destruct (rstrip s); [rewrite Hc|]; exact Hc.
Qed.

(** [strip] removes the whitespace at both ends: the string is the
    result between two runs of whitespace, and the result neither starts
    nor ends with whitespace. *)
Lemma strip_spec (s : string) :
  exists l r, s = (l ++ strip s ++ r)%string /\
              all_space l = true /\ all_space r = true /\
              starts_with_space (strip s) = false /\
              ends_with_space (strip s) = false.
Proof.
  destruct (lstrip_split s) as (l & Hs & Hl & Hh).
  destruct (rstrip_split (lstrip s)) as (r & Hm & Hr & He).
  exists l, r. unfold strip.
  repeat split; [|exact Hl|exact Hr|now apply rstrip_head|exact He].
  now rewrite <- Hm.
Qed.

Lemma or_empty_some (t : string) : or_empty (Some t) = t.
Proof. now destruct t. Qed.

Lemma or_empty_falsy (v : option string) :
  truthy v = false -> or_empty v = ""%string.
Proof. now destruct v as [[|c s]|]. Qed.

End Strip.

(* ------------------------------------------------------------------ *)
(** ** What the two functions do, path by path                          *)
(* ------------------------------------------------------------------ *)

Section Runs.
Variable w : World.

Ltac run_step :=
  unfold _file_to_data_url, caption, responses_create, AsyncOpenAI,
    os_environ_get, Path_expanduser, Path_resolve, Path_exists,
    Path_is_file, mimetypes_guess_type, Path_read_bytes,
    bytes_decode_utf8, bind, access, ret, raise.

(** The encoder on a regular file. *)
Lemma encoder_regular (p : string) (data : list byte) (tr : list Event) :
  files w !! p = Some (RegularFile data) ->
  _file_to_data_url p w tr =
  (inr ("data:" ++ mime_or_png (fst (guess_type w p)) ++ ";base64,"
          ++ string_of_list_byte (Base64.b64encode data))%string,
   tr ++ [PathExists p; PathIsFile p; GuessType p; PathReadBytes p]).
Proof.
  intros H. run_step.
  repeat (first [rewrite H | rewrite b64encode_ascii];
          cbv beta iota delta [negb]).
  now rewrite <- !app_assoc.
Qed.

(** The encoder on a path that names nothing. *)
Lemma encoder_missing (p : string) (tr : list Event) :
  files w !! p = None ->
  _file_to_data_url p w tr =
  (inl (FileNotFoundError ("Image not found: " ++ p)%string),
   tr ++ [PathExists p]).
Proof. intros H. run_step. now rewrite H. Qed.

(** The encoder on a path that names something else than a file. *)
Lemma encoder_directory (p : string) (tr : list Event) :
  files w !! p = Some Directory ->
  _file_to_data_url p w tr =
  (inl (FileNotFoundError ("Image not found: " ++ p)%string),
   tr ++ [PathExists p; PathIsFile p]).
Proof.
  intros H. run_step.
  repeat (rewrite H; cbv beta iota delta [negb]).
  now rewrite <- !app_assoc.
Qed.

(** The trace the encoder is started with is kept and extended. *)
Lemma encoder_trace (p : string) (tr : list Event) :
  _file_to_data_url p w tr =
  (fst (run (_file_to_data_url p) w),
   tr ++ snd (run (_file_to_data_url p) w)).
Proof.
  unfold run.
  destruct (files w !! p) as [[data|]|] eqn:H.
  - now rewrite !(encoder_regular p data) by assumption.
  - now rewrite !(encoder_directory p) by assumption.
  - now rewrite !(encoder_missing p) by assumption.
Qed.

(** The events of the encoder name the path it was given. *)
Lemma encoder_events (p : string) (ev : Event) (q : string) :
  In ev (snd (run (_file_to_data_url p) w)) ->
  encoder_path ev = Some q -> q = p.
Proof.
  unfold run.
  destruct (files w !! p) as [[data|]|] eqn:H;
    [rewrite (encoder_regular p data) by assumption
    |rewrite (encoder_directory p) by assumption
    |rewrite (encoder_missing p) by assumption];
    cbn [snd app In]; intros Hin Hq;
    repeat (destruct Hin as [<-|Hin]; [cbn in Hq; congruence|]);
    contradiction.
Qed.

Ltac caption_step :=
  unfold caption, responses_create, AsyncOpenAI, os_environ_get,
    Path_expanduser, Path_resolve, bind, access, ret, raise.

(** Without a usable key, [caption] stops after looking for one. *)
Lemma caption_no_credentials (image_path prompt model : string)
    (max_output_tokens : Z) (api_key : option string) :
  Py.truthy (resolved_key w api_key) = false ->
  run (caption image_path prompt model max_output_tokens api_key) w =
  (inl (RuntimeError missing_key_message), key_lookup api_key).
Proof.
  unfold resolved_key, key_lookup, run. caption_step.
  destruct (Py.truthy api_key) eqn:Hk; intros H.
  - now rewrite H.
  - cbv beta iota. now rewrite H.
Qed.

(** With a usable key, [caption] builds the client, normalizes the path,
    runs the encoder and, if that returns, sends one request. *)
Lemma caption_with_credentials (image_path prompt model : string)
    (max_output_tokens : Z) (api_key : option string) (k : string) :
  resolved_key w api_key = Some k -> Py.truthy (Some k) = true ->
  run (caption image_path prompt model max_output_tokens api_key) w =
  let path := normal_path w image_path in
  let tr0 := key_lookup api_key ++
             [ClientInit k; PathExpandUser image_path;
              PathResolve (expanduser w image_path)] in
  let enc := run (_file_to_data_url path) w in
  match fst enc with
  | inl e => (inl e, tr0 ++ snd enc)
  | inr data_url =>
      let req := caption_request prompt model max_output_tokens data_url in
      (match remote w k req with
       | inl e => inl e
       | inr resp => inr (Py.strip (or_empty (output_text resp)))
       end,
       tr0 ++ snd enc ++ [ResponsesCreate k req])
  end.
Proof.
  unfold resolved_key, key_lookup, run, normal_path. caption_step.
  intros Hk Ht.
  destruct (Py.truthy api_key) eqn:Ha.
  - subst api_key. cbv beta iota. rewrite Ht. cbv beta iota delta [negb].
    rewrite encoder_trace.
    destruct (fst (_ : (Exception + string) * list Event)) as [e|url].
    + now rewrite <- !app_assoc.
    + cbv beta iota zeta delta [client_api_key caption_request].
      rewrite <- !app_assoc.
      now destruct (remote w k _).
  - cbv beta iota. rewrite Hk, Ht. cbv beta iota delta [negb].
    rewrite encoder_trace.
    destruct (fst (_ : (Exception + string) * list Event)) as [e|url].
    + now rewrite <- !app_assoc.
    + cbv beta iota zeta delta [client_api_key caption_request].
      rewrite <- !app_assoc.
      now destruct (remote w k _).
Qed.

(** Every call of [caption] takes one of four paths. *)
Lemma caption_cases (image_path prompt model : string)
    (max_output_tokens : Z) (api_key : option string) :
  let r := run (caption image_path prompt model max_output_tokens api_key) w in
  let path := normal_path w image_path in
  (Py.truthy (resolved_key w api_key) = false /\
   r = (inl (RuntimeError missing_key_message), key_lookup api_key))
  \/
  exists k, resolved_key w api_key = Some k /\ Py.truthy (Some k) = true /\
    let tr0 := key_lookup api_key ++
               [ClientInit k; PathExpandUser image_path;
                PathResolve (expanduser w image_path)] in
    ((files w !! path = None /\
      r = (inl (FileNotFoundError ("Image not found: " ++ path)%string),
           tr0 ++ [PathExists path]))
     \/
     (files w !! path = Some Directory /\
      r = (inl (FileNotFoundError ("Image not found: " ++ path)%string),
           tr0 ++ [PathExists path; PathIsFile path]))
     \/
     (exists data url,
        files w !! path = Some (RegularFile data) /\
        fst (run (_file_to_data_url path) w) = inr url /\
        let req := caption_request prompt model max_output_tokens url in
        r = (match remote w k req with
             | inl e => inl e
             | inr resp => inr (Py.strip (or_empty (output_text resp)))
             end,
             tr0 ++ [PathExists path; PathIsFile path; GuessType path;
                     PathReadBytes path; ResponsesCreate k req]))).
Proof.
  intros r path.
  destruct (Py.truthy (resolved_key w api_key)) eqn:Ht.
  - right. destruct (resolved_key w api_key) as [k|] eqn:Hk;
      [|discriminate].
    exists k. repeat split; [exact Ht|]. intros tr0.
    pose proof (caption_with_credentials image_path prompt model
                  max_output_tokens api_key k Hk Ht) as Hrun.
    fold r in Hrun. cbv zeta in Hrun. fold path in Hrun. fold tr0 in Hrun.
    destruct (files w !! path) as [[data|]|] eqn:Hf.
    + right. right. unfold run in Hrun |- *.
      rewrite (encoder_regular path data) in Hrun |- * by assumption.
      cbn [fst snd app] in Hrun |- *.
      eexists data, _. repeat split. exact Hrun.
    + right. left. split; [reflexivity|]. unfold run in Hrun.
      rewrite (encoder_directory path) in Hrun by assumption.
      exact Hrun.
    + left. split; [reflexivity|]. unfold run in Hrun.
      rewrite (encoder_missing path) in Hrun by assumption.
      exact Hrun.
  - left. split; [reflexivity|].
    now apply caption_no_credentials.
Qed.

End Runs.

(* ------------------------------------------------------------------ *)
(** ** The encoder                                                      *)
(* ------------------------------------------------------------------ *)

(** C1.  For every existing regular file the encoder returns a string
    [data:<mime>;base64,<payload>], where the payload is the base64
    encoding of the bytes of the file: it is made of the base64 alphabet
    only, and decoding it gives back exactly the bytes of the file. *)
Theorem data_url_round_trip (w : World) (p : string) (data : list byte) :
  files w !! p = Some (RegularFile data) ->
  exists mime payload : string,
    fst (run (_file_to_data_url p) w) =
      inr ("data:" ++ mime ++ ";base64," ++ payload)%string /\
    payload = string_of_list_byte (Base64.b64encode data) /\
    forallb Base64.is_b64 (list_byte_of_string payload) = true /\
    Base64.b64decode (list_byte_of_string payload) = Some data.
Proof.
  intros Hfile.
  exists (mime_or_png (fst (guess_type w p))),
         (string_of_list_byte (Base64.b64encode data)).
  unfold run. rewrite (encoder_regular w p data) by assumption.
  rewrite list_byte_of_string_of_list_byte.
  repeat split.
  - apply b64encode_is_b64.
  - apply b64decode_b64encode.
Qed.

Lemma data_url_round_trip_witness :
  files Host.offline !! "/home/ann/pics/cat.jpg"%string
    = Some (RegularFile [xff; xd8; xff; xe0; x00]) /\
  exists mime payload : string,
    fst (run (_file_to_data_url "/home/ann/pics/cat.jpg") Host.offline) =
      inr ("data:" ++ mime ++ ";base64," ++ payload)%string /\
    payload = string_of_list_byte (Base64.b64encode [xff; xd8; xff; xe0; x00]) /\
    forallb Base64.is_b64 (list_byte_of_string payload) = true /\
    Base64.b64decode (list_byte_of_string payload)
      = Some [xff; xd8; xff; xe0; x00].
Proof.
  split.
  - vm_compute. reflexivity.
  - apply (data_url_round_trip Host.offline
             "/home/ann/pics/cat.jpg" [xff; xd8; xff; xe0; x00]).
    vm_compute. reflexivity.
Defined.

(** The data URL of the sample JPEG file, computed. *)
Example data_url_of_cat :
  run (_file_to_data_url "/home/ann/pics/cat.jpg")
      Host.offline =
  (inr "data:image/jpeg;base64,/9j/4AA="%string,
   [PathExists "/home/ann/pics/cat.jpg"; PathIsFile "/home/ann/pics/cat.jpg";
    GuessType "/home/ann/pics/cat.jpg"; PathReadBytes "/home/ann/pics/cat.jpg"]).
Proof. vm_compute. reflexivity. Qed.

(** The test vectors of RFC 4648, section 10. *)
Example rfc4648_vectors :
  map (fun s => string_of_list_byte (Base64.b64encode (list_byte_of_string s)))
      ["f"; "fo"; "foo"; "foob"; "fooba"; "foobar"]%string =
  ["Zg=="; "Zm8="; "Zm9v"; "Zm9vYg=="; "Zm9vYmE="; "Zm9vYmFy"]%string.
Proof. vm_compute. reflexivity. Qed.

(** C3.  On a path that does not exist or does not name a regular file
    the encoder raises [FileNotFoundError]; it returns no value. *)
Theorem encoder_rejects_non_files (w : World) (p : string) :
  files w !! p = None \/ files w !! p = Some Directory ->
  fst (run (_file_to_data_url p) w) =
    inl (FileNotFoundError ("Image not found: " ++ p)%string) /\
  (forall url, fst (run (_file_to_data_url p) w) <> inr url) /\
  ~ In (PathReadBytes p) (snd (run (_file_to_data_url p) w)).
Proof.
  unfold run.
  intros [H|H];
    [rewrite (encoder_missing w p) by assumption
    |rewrite (encoder_directory w p) by assumption];
    cbn [fst snd app In]; repeat split;
    solve [discriminate | intuition discriminate].
Qed.

Lemma encoder_rejects_non_files_witness :
  (files Host.offline !! "/home/ann/pics"%string = None \/
   files Host.offline !! "/home/ann/pics"%string = Some Directory) /\
  fst (run (_file_to_data_url "/home/ann/pics") Host.offline) =
    inl (FileNotFoundError "Image not found: /home/ann/pics").
Proof.
  split.
  - right. vm_compute. reflexivity.
  - apply (encoder_rejects_non_files Host.offline "/home/ann/pics").
    right. vm_compute. reflexivity.
Defined.

(** The same on a path that names nothing. *)
Example encoder_on_missing_path :
  run (_file_to_data_url "/home/ann/pics/nope.png")
      Host.offline =
  (inl (FileNotFoundError "Image not found: /home/ann/pics/nope.png"),
   [PathExists "/home/ann/pics/nope.png"]).
Proof. vm_compute. reflexivity. Qed.

(** C4.  When the type of a regular file cannot be guessed from its
    name, or the guess is not an image type, the MIME part of the data
    URL is [image/png]; the payload still is the encoding of the bytes
    of the file, and decodes to them. *)
Theorem encoder_defaults_to_png (w : World) (p : string) (data : list byte) :
  files w !! p = Some (RegularFile data) ->
  (fst (guess_type w p) = None \/
   exists m, fst (guess_type w p) = Some m /\
             Py.startswith m "image/" = false) ->
  fst (run (_file_to_data_url p) w) =
    inr ("data:image/png;base64," ++
         string_of_list_byte (Base64.b64encode data))%string /\
  Base64.b64decode (Base64.b64encode data) = Some data.
Proof.
  intros Hfile Hguess. split; [|apply b64decode_b64encode].
  unfold run. rewrite (encoder_regular w p data) by assumption.
  cbn [fst]. unfold mime_or_png.
  destruct Hguess as [->|(m & -> & ->)]; reflexivity.
Qed.

Lemma encoder_defaults_to_png_witness :
  files Host.offline !! "/home/ann/pics/notes.txt"%string
    = Some (RegularFile [x68; x69]) /\
  fst (guess_type Host.offline "/home/ann/pics/notes.txt")
    = Some "text/plain"%string /\
  fst (run (_file_to_data_url "/home/ann/pics/notes.txt") Host.offline) =
    inr "data:image/png;base64,aGk="%string.
Proof.
  split; [vm_compute; reflexivity|]. split; [vm_compute; reflexivity|].
  apply (encoder_defaults_to_png Host.offline
           "/home/ann/pics/notes.txt" [x68; x69]).
  - vm_compute. reflexivity.
  - right. exists "text/plain"%string. split; vm_compute; reflexivity.
Defined.

(** A file without extension: no guess at all. *)
Example encoder_on_raw_file :
  fst (run (_file_to_data_url "/home/ann/pics/raw")
           Host.offline) =
  inr "data:image/png;base64,AAECAw=="%string.
Proof. vm_compute. reflexivity. Qed.

(** A guess that is an image type is kept. *)
Example encoder_keeps_image_types :
  map mime_or_png [Some "image/webp"; Some "text/plain"; Some "image"; None]%string
  = ["image/webp"; "image/png"; "image/png"; "image/png"]%string.
Proof. vm_compute. reflexivity. Qed.

(* ------------------------------------------------------------------ *)
(** ** The caption requester                                            *)
(* ------------------------------------------------------------------ *)

Section CaptionFacts.
Variable w : World.
Variables (image_path prompt model : string) (max_output_tokens : Z).
Variable api_key : option string.

Let call := run (caption image_path prompt model max_output_tokens api_key) w.
Let path := normal_path w image_path.

Ltac by_cases :=
  destruct (caption_cases w image_path prompt model max_output_tokens api_key)
    as [(Hkey & Hrun)
       |(k0 & Hkey & Htruthy &
         [(Hfile & Hrun)|[(Hfile & Hrun)|(data & url & Hfile & Henc & Hrun)]])];
  cbv zeta in Hrun; fold call in Hrun; fold path in Hrun;
  try fold path in Hfile; try fold path in Henc.

Ltac key_events := unfold key_lookup; destruct (Py.truthy api_key).

(** The requests of a call: one, when a key is found and the encoder
    returns, and none otherwise. *)
Lemma caption_sent :
  sent (snd call) =
  if Py.truthy (resolved_key w api_key)
  then match fst (run (_file_to_data_url path) w) with
       | inr url => [caption_request prompt model max_output_tokens url]
       | inl _ => []
       end
  else [].
Proof.
  by_cases; rewrite Hrun; cbn [snd].
  - rewrite Hkey. now key_events.
  - rewrite Hkey, Htruthy. unfold run.
    rewrite (encoder_missing w path) by assumption. now key_events.
  - rewrite Hkey, Htruthy. unfold run.
    rewrite (encoder_directory w path) by assumption. now key_events.
  - rewrite Hkey, Htruthy, Henc. now key_events.
Qed.

(** A call that reached the remote endpoint: with which key, with which
    request, and what it returns. *)
Lemma caption_after_request (k : string) (req : Request) :
  In (ResponsesCreate k req) (snd call) ->
  resolved_key w api_key = Some k /\ Py.truthy (Some k) = true /\
  (exists url, fst (run (_file_to_data_url path) w) = inr url /\
               req = caption_request prompt model max_output_tokens url) /\
  fst call = match remote w k req with
             | inl e => inl e
             | inr resp => inr (Py.strip (or_empty (output_text resp)))
             end.
Proof.
  by_cases; rewrite Hrun; cbn [fst snd]; key_events;
    cbn [app In]; intros Hin;
    repeat (destruct Hin as [Hin|Hin]; [try discriminate Hin|]);
    try contradiction.
  all: injection Hin as <- <-; repeat split; eauto.
Qed.

(** The events of a call that use a credential use the resolved key. *)
Lemma caption_credentials (ev : Event) (k : string) :
  In ev (snd call) -> credential ev = Some k ->
  resolved_key w api_key = Some k /\ Py.truthy (Some k) = true.
Proof.
  by_cases; rewrite Hrun; cbn [snd]; key_events;
    cbn [app In]; intros Hin Hc;
    repeat (destruct Hin as [<-|Hin]; [cbn in Hc; try discriminate Hc|]);
    try contradiction.
  all: injection Hc as <-; now split.
Qed.

(** The events of the encoder inside a call name the normalized path. *)
Lemma caption_encoder_events (ev : Event) (q : string) :
  In ev (snd call) -> encoder_path ev = Some q -> q = path.
Proof.
  by_cases; rewrite Hrun; cbn [snd]; key_events;
    cbn [app In]; intros Hin Hq;
    repeat (destruct Hin as [<-|Hin]; [cbn in Hq; try discriminate Hq|]);
    try contradiction.
  all: now injection Hq as <-.
Qed.

(** The trace of a call that found a key: the normalization of the path,
    then the run of the encoder on the normalized path. *)
Lemma caption_trace_order :
  Py.truthy (resolved_key w api_key) = true ->
  exists pre post,
    snd call =
      pre ++ [PathExpandUser image_path;
              PathResolve (expanduser w image_path)]
          ++ snd (run (_file_to_data_url path) w) ++ post /\
    forallb (fun ev => match encoder_path ev with
                       | Some _ => false
                       | None => true
                       end) pre = true.
Proof.
  intros Ht.
  destruct (resolved_key w api_key) as [k|] eqn:Hk; [|discriminate].
  unfold call.
  rewrite (caption_with_credentials w image_path prompt model
             max_output_tokens api_key k Hk Ht).
  cbv zeta. fold path.
  exists (key_lookup api_key ++ [ClientInit k]).
  destruct (fst (run (_file_to_data_url path) w)) as [e|url].
  - exists []. cbn [snd]. rewrite app_nil_r, <- !app_assoc.
    split; [reflexivity|]. now key_events.
  - eexists [_]. cbn [snd]. rewrite <- !app_assoc.
    split; [reflexivity|]. now key_events.
Qed.

End CaptionFacts.

(** The requests of a trace are the requests of its network events. *)
Lemma sent_in (tr : list Event) (req : Request) :
  In req (sent tr) -> exists k, In (ResponsesCreate k req) tr.
Proof.
  induction tr as [|ev tr IH]; [contradiction|].
  destruct ev; cbn [sent In]; intros H;
    try (destruct (IH H) as (k & Hk); exists k; now right).
  destruct H as [<-|H].
  - eexists. left. reflexivity.
  - destruct (IH H) as (k & Hk). exists k. now right.
Qed.

(** C2.  A call without [api_key], in an environment without
    [OPENAI_API_KEY], raises the [RuntimeError] for the missing key, and
    the only thing it has done by then is the lookup in the environment:
    no client was built, no path was resolved or read, no request sent. *)
Theorem caption_without_key_fails_first (w : World)
    (image_path prompt model : string) (max_output_tokens : Z) :
  environ w !! "OPENAI_API_KEY"%string = None ->
  run (caption image_path prompt model max_output_tokens None) w =
    (inl (RuntimeError missing_key_message), [EnvGet "OPENAI_API_KEY"]) /\
  existsb is_network
    (snd (run (caption image_path prompt model max_output_tokens None) w))
    = false /\
  existsb is_file_io
    (snd (run (caption image_path prompt model max_output_tokens None) w))
    = false /\
  existsb is_client_init
    (snd (run (caption image_path prompt model max_output_tokens None) w))
    = false.
Proof.
  intros Henv.
  rewrite (caption_no_credentials w image_path prompt model
             max_output_tokens None)
    by (unfold resolved_key; cbn [Py.truthy]; now rewrite Henv).
  now repeat split.
Qed.

Lemma caption_without_key_fails_first_witness :
  environ (Host.world Host.without_key Host.failing_remote)
    !! "OPENAI_API_KEY"%string = None /\
  run (caption "cat.jpg" default_prompt default_model
         default_max_output_tokens None)
      (Host.world Host.without_key Host.failing_remote) =
    (inl (RuntimeError missing_key_message), [EnvGet "OPENAI_API_KEY"]).
Proof.
  split.
  - vm_compute. reflexivity.
  - apply (caption_without_key_fails_first
             (Host.world Host.without_key Host.failing_remote)
             "cat.jpg" default_prompt default_model
             default_max_output_tokens).
    vm_compute. reflexivity.
Defined.

(** C5.  When the remote endpoint answers the request of a call with a
    text, the call returns that text stripped: the text is the result
    between two runs of whitespace, and the result neither starts nor
    ends with whitespace.  The answer ["  A cat sits on a mat.  "] is
    returned as ["A cat sits on a mat."]. *)
Theorem caption_returns_stripped_text (w : World)
    (image_path prompt model : string) (max_output_tokens : Z)
    (api_key : option string)
    (k : string) (req : Request) (resp : Response) (t : string) :
  In (ResponsesCreate k req)
     (snd (run (caption image_path prompt model max_output_tokens api_key) w)) ->
  remote w k req = inr resp ->
  output_text resp = Some t ->
  fst (run (caption image_path prompt model max_output_tokens api_key) w)
    = inr (Py.strip t) /\
  (exists l r, t = (l ++ Py.strip t ++ r)%string /\
               Py.all_space l = true /\ Py.all_space r = true /\
               Py.starts_with_space (Py.strip t) = false /\
               Py.ends_with_space (Py.strip t) = false) /\
  (t = "  A cat sits on a mat.  "%string ->
   fst (run (caption image_path prompt model max_output_tokens api_key) w)
     = inr "A cat sits on a mat."%string).
Proof.
  intros Hin Hremote Htext.
  destruct (caption_after_request w image_path prompt model
              max_output_tokens api_key k req Hin) as (_ & _ & _ & Hres).
  rewrite Hremote, Htext, or_empty_some in Hres.
  repeat split; [exact Hres|apply strip_spec|].
  intros ->. exact Hres.
Qed.

Lemma caption_returns_stripped_text_witness :
  fst (run (caption "cat.jpg" default_prompt default_model
              default_max_output_tokens None)
           (Host.answering (Some "  A cat sits on a mat.  "%string)))
  = inr "A cat sits on a mat."%string.
Proof.
  apply (caption_returns_stripped_text
           (Host.answering (Some "  A cat sits on a mat.  "%string))
           "cat.jpg" default_prompt default_model default_max_output_tokens
           None "sk-env"
           (caption_request default_prompt default_model
              default_max_output_tokens "data:image/jpeg;base64,/9j/4AA=")
           (mkResponse (Some "  A cat sits on a mat.  "%string))
           "  A cat sits on a mat.  ").
  - vm_compute. repeat (first [left; reflexivity | right]).
  - vm_compute. reflexivity.
  - vm_compute. reflexivity.
  - reflexivity.
Defined.

(** Whitespace inside the text stays; a text of whitespace becomes empty. *)
Example strip_examples :
  map Py.strip ["  A cat sits on a mat.  "; " a  b "; "   "; ""; "x"]%string
  = ["A cat sits on a mat."; "a  b"; ""; ""; "x"]%string.
Proof. vm_compute. reflexivity. Qed.

(** C6.  When the answer of the remote endpoint has no text ([None], or
    the empty string), the call returns the empty string; it does not
    raise. *)
Theorem caption_returns_empty_without_text (w : World)
    (image_path prompt model : string) (max_output_tokens : Z)
    (api_key : option string)
    (k : string) (req : Request) (resp : Response) :
  In (ResponsesCreate k req)
     (snd (run (caption image_path prompt model max_output_tokens api_key) w)) ->
  remote w k req = inr resp ->
  output_text resp = None \/ output_text resp = Some ""%string ->
  fst (run (caption image_path prompt model max_output_tokens api_key) w)
    = inr ""%string.
Proof.
  intros Hin Hremote Htext.
  destruct (caption_after_request w image_path prompt model
              max_output_tokens api_key k req Hin) as (_ & _ & _ & Hres).
  rewrite Hremote in Hres.
  now destruct Htext as [Ht|Ht]; rewrite Ht in Hres.
Qed.

Lemma caption_returns_empty_without_text_witness :
  fst (run (caption "cat.jpg" default_prompt default_model
              default_max_output_tokens None)
           (Host.answering None))
  = inr ""%string.
Proof.
  apply (caption_returns_empty_without_text
           (Host.answering None)
           "cat.jpg" default_prompt default_model default_max_output_tokens
           None "sk-env"
           (caption_request default_prompt default_model
              default_max_output_tokens "data:image/jpeg;base64,/9j/4AA=")
           (mkResponse None)).
  - vm_compute. repeat (first [left; reflexivity | right]).
  - vm_compute. reflexivity.
  - left. reflexivity.
Defined.

(** C7.  A request that a call sends is the only one it sends, and its
    input is one message, with role ["user"], whose content is two parts
    in this order: the prompt as text, then the data URL the encoder
    returned for the normalized path as image. *)
Theorem caption_request_shape (w : World)
    (image_path prompt model : string) (max_output_tokens : Z)
    (api_key : option string) (req : Request) :
  In req (sent (snd (run (caption image_path prompt model
                            max_output_tokens api_key) w))) ->
  sent (snd (run (caption image_path prompt model
                    max_output_tokens api_key) w)) = [req] /\
  exists data_url,
    fst (run (_file_to_data_url (normal_path w image_path)) w)
      = inr data_url /\
    req_input req =
      [ {| role := "user";
           content := [ input_text prompt; input_image data_url ] |} ] /\
    req_model req = model /\
    req_max_output_tokens req = max_output_tokens.
Proof.
  rewrite caption_sent.
  destruct (Py.truthy (resolved_key w api_key)); [|contradiction].
  destruct (fst (run (_file_to_data_url (normal_path w image_path)) w))
    as [e|url]; [contradiction|].
  intros [<-|[]]. split; [reflexivity|].
  exists url. now repeat split.
Qed.

Lemma caption_request_shape_witness :
  sent (snd (run (caption "cat.jpg" "What is this?" "gpt-4.1-mini" 40 None)
                 (Host.answering (Some "A cat."%string)))) =
  [ {| req_model := "gpt-4.1-mini";
       req_input :=
         [ {| role := "user";
              content := [ input_text "What is this?";
                           input_image "data:image/jpeg;base64,/9j/4AA=" ] |} ];
       req_max_output_tokens := 40 |} ].
Proof.
  apply (caption_request_shape (Host.answering (Some "A cat."%string))
           "cat.jpg" "What is this?" "gpt-4.1-mini" 40 None).
  vm_compute. left. reflexivity.
Defined.

(** C8.  Two calls that differ in the prompt only send requests that
    differ in the text part only, and two calls that differ in
    [max_output_tokens] only send requests that differ in that field
    only: the model, the role, the image and the shape of the message
    are the same. *)
Theorem caption_request_frame (w : World)
    (image_path model : string) (api_key : option string)
    (prompt1 prompt2 : string) (tokens1 tokens2 : Z) (r1 : Request) :
  sent (snd (run (caption image_path prompt1 model tokens1 api_key) w))
    = [r1] ->
  sent (snd (run (caption image_path prompt2 model tokens1 api_key) w))
    = [with_prompt prompt2 r1] /\
  sent (snd (run (caption image_path prompt1 model tokens2 api_key) w))
    = [with_max_output_tokens tokens2 r1].
Proof.
  rewrite !caption_sent.
  destruct (Py.truthy (resolved_key w api_key)); [|discriminate].
  destruct (fst (run (_file_to_data_url (normal_path w image_path)) w))
    as [e|url]; [discriminate|].
  intros [= <-]. split; reflexivity.
Qed.

Lemma caption_request_frame_witness :
  sent (snd (run (caption "cat.jpg" "Make it a funny caption."
                    default_model 80 None)
                 (Host.answering (Some "A cat."%string)))) =
    [ with_prompt "Make it a funny caption."
        (caption_request default_prompt default_model 80
           "data:image/jpeg;base64,/9j/4AA=") ] /\
  sent (snd (run (caption "cat.jpg" default_prompt default_model 200 None)
                 (Host.answering (Some "A cat."%string)))) =
    [ with_max_output_tokens 200
        (caption_request default_prompt default_model 80
           "data:image/jpeg;base64,/9j/4AA=") ].
Proof.
  apply (caption_request_frame (Host.answering (Some "A cat."%string))
           "cat.jpg" default_model None
           default_prompt "Make it a funny caption." 80 200).
  vm_compute. reflexivity.
Defined.

(** What the two updates leave alone. *)
Example request_updates :
  let r := caption_request "p" "m" 80 "data:image/png;base64,AAECAw==" in
  with_prompt "q" r = caption_request "q" "m" 80 "data:image/png;base64,AAECAw=="
  /\ with_max_output_tokens 7 r
     = caption_request "p" "m" 7 "data:image/png;base64,AAECAw==".
Proof. split; reflexivity. Qed.

(** C9.  A call normalizes the path before it encodes: the home
    directory is expanded and the result resolved, in this order, and
    the encoder is then run on the resolved path, so that every file
    access of the call names this path.  Two spellings with the same
    normal form give the same result and the same request. *)
Theorem caption_normalizes_path (w : World)
    (image_path prompt model : string) (max_output_tokens : Z)
    (api_key : option string) :
  (forall ev q,
     In ev (snd (run (caption image_path prompt model
                        max_output_tokens api_key) w)) ->
     encoder_path ev = Some q ->
     q = resolve w (expanduser w image_path)) /\
  (Py.truthy (resolved_key w api_key) = true ->
   exists pre post,
     snd (run (caption image_path prompt model max_output_tokens api_key) w) =
       pre ++ [PathExpandUser image_path;
               PathResolve (expanduser w image_path)]
           ++ snd (run (_file_to_data_url
                          (resolve w (expanduser w image_path))) w)
           ++ post /\
     forallb (fun ev => match encoder_path ev with
                        | Some _ => false
                        | None => true
                        end) pre = true) /\
  (forall other : string,
     resolve w (expanduser w other) = resolve w (expanduser w image_path) ->
     fst (run (caption other prompt model max_output_tokens api_key) w) =
     fst (run (caption image_path prompt model max_output_tokens api_key) w)
     /\
     sent (snd (run (caption other prompt model max_output_tokens api_key) w)) =
     sent (snd (run (caption image_path prompt model
                       max_output_tokens api_key) w))).
Proof.
  split; [|split].
  - intros ev q. apply caption_encoder_events.
  - apply caption_trace_order.
  - intros other Hsame. split.
    + destruct (Py.truthy (resolved_key w api_key)) eqn:Ht.
      * destruct (resolved_key w api_key) as [k|] eqn:Hk; [|discriminate].
        rewrite !(caption_with_credentials w _ prompt model
                    max_output_tokens api_key k Hk Ht).
        cbv zeta. unfold normal_path. rewrite Hsame.
        now destruct (fst (run (_file_to_data_url _) w)).
      * now rewrite !caption_no_credentials by assumption.
    + rewrite !caption_sent. unfold normal_path. now rewrite Hsame.
Qed.

Lemma caption_normalizes_path_witness :
  fst (run (caption "~/pics/cat.jpg" default_prompt default_model 80 None)
           (Host.answering (Some " A cat. "%string))) =
  fst (run (caption "cat.jpg" default_prompt default_model 80 None)
           (Host.answering (Some " A cat. "%string))) /\
  sent (snd (run (caption "~/pics/cat.jpg" default_prompt default_model 80 None)
                 (Host.answering (Some " A cat. "%string)))) =
  sent (snd (run (caption "cat.jpg" default_prompt default_model 80 None)
                 (Host.answering (Some " A cat. "%string)))).
Proof.
  apply (caption_normalizes_path (Host.answering (Some " A cat. "%string))
           "cat.jpg" default_prompt default_model 80 None).
  vm_compute. reflexivity.
Defined.

(** Three spellings of one file on the sample host. *)
Example spellings_of_cat :
  map (normal_path Host.offline)
      ["~/pics/cat.jpg"; "cat.jpg"; "../pics/./cat.jpg";
       "/home/ann//pics/cat.jpg"]%string
  = ["/home/ann/pics/cat.jpg"; "/home/ann/pics/cat.jpg";
     "/home/ann/pics/cat.jpg"; "/home/ann/pics/cat.jpg"]%string.
Proof. vm_compute. reflexivity. Qed.

(** The whole of a successful call on the sample host. *)
Example caption_of_cat :
  run (caption "~/pics/cat.jpg" default_prompt default_model 80 None)
      (Host.answering (Some "  A cat sits on a mat.  "%string)) =
  (inr "A cat sits on a mat."%string,
   [EnvGet "OPENAI_API_KEY"; ClientInit "sk-env";
    PathExpandUser "~/pics/cat.jpg"; PathResolve "/home/ann/pics/cat.jpg";
    PathExists "/home/ann/pics/cat.jpg"; PathIsFile "/home/ann/pics/cat.jpg";
    GuessType "/home/ann/pics/cat.jpg"; PathReadBytes "/home/ann/pics/cat.jpg";
    ResponsesCreate "sk-env"
      (caption_request default_prompt default_model 80
         "data:image/jpeg;base64,/9j/4AA=")]).
Proof. vm_compute. reflexivity. Qed.

(** C10.  An [api_key] that is the empty string counts as no key: the
    call runs as the call without [api_key] does, it starts by reading
    [OPENAI_API_KEY] from the environment, it raises the [RuntimeError]
    for the missing key when the variable is unset or empty, and every
    key it uses as a credential is the non-empty value of the variable. *)
Theorem caption_empty_key_is_no_key (w : World)
    (image_path prompt model : string) (max_output_tokens : Z) :
  run (caption image_path prompt model max_output_tokens (Some ""%string)) w =
  run (caption image_path prompt model max_output_tokens None) w /\
  (exists tr,
     snd (run (caption image_path prompt model max_output_tokens
                 (Some ""%string)) w) = EnvGet "OPENAI_API_KEY" :: tr) /\
  (environ w !! "OPENAI_API_KEY"%string = None \/
   environ w !! "OPENAI_API_KEY"%string = Some ""%string ->
   run (caption image_path prompt model max_output_tokens (Some ""%string)) w =
     (inl (RuntimeError missing_key_message), [EnvGet "OPENAI_API_KEY"])) /\
  (forall ev k,
     In ev (snd (run (caption image_path prompt model max_output_tokens
                        (Some ""%string)) w)) ->
     credential ev = Some k ->
     k <> ""%string /\ environ w !! "OPENAI_API_KEY"%string = Some k).
Proof.
  split; [reflexivity|]. split; [|split].
  - destruct (caption_cases w image_path prompt model max_output_tokens
                (Some ""%string))
      as [(_ & Hrun)|(k & _ & _ & [(_ & Hrun)|[(_ & Hrun)|(d & u & _ & _ & Hrun)]])];
      cbv zeta in Hrun; rewrite Hrun; cbn [snd key_lookup Py.truthy app];
      eexists; reflexivity.
  - intros Henv. apply caption_no_credentials.
    unfold resolved_key. cbn [Py.truthy].
    now destruct Henv as [->| ->].
  - intros ev k Hin Hc.
    destruct (caption_credentials w image_path prompt model
                max_output_tokens (Some ""%string) ev k Hin Hc) as (Hk & Ht).
    unfold resolved_key in Hk. cbn [Py.truthy] in Hk.
    split; [|exact Hk]. intros ->. discriminate Ht.
Qed.

Lemma caption_empty_key_is_no_key_witness :
  (environ (Host.world Host.with_empty_key Host.failing_remote)
     !! "OPENAI_API_KEY"%string = None \/
   environ (Host.world Host.with_empty_key Host.failing_remote)
     !! "OPENAI_API_KEY"%string = Some ""%string) /\
  run (caption "cat.jpg" default_prompt default_model 80 (Some ""%string))
      (Host.world Host.with_empty_key Host.failing_remote) =
    (inl (RuntimeError missing_key_message), [EnvGet "OPENAI_API_KEY"]).
Proof.
  split.
  - right. vm_compute. reflexivity.
  - apply (caption_empty_key_is_no_key
             (Host.world Host.with_empty_key Host.failing_remote)
             "cat.jpg" default_prompt default_model 80).
    right. vm_compute. reflexivity.
Defined.

(** An empty argument and a key in the environment: the key of the
    environment is the credential. *)
Example caption_falls_back_to_environment :
  map credential
    (snd (run (caption "cat.jpg" default_prompt default_model 80
                 (Some ""%string))
              (Host.answering (Some "A cat."%string))))
  = [None; Some "sk-env"; None; None; None; None; None; None;
     Some "sk-env"]%string.
Proof. vm_compute. reflexivity. Qed.

(** A key given as argument is used and the environment is not read. *)
Example caption_prefers_argument :
  map credential
    (snd (run (caption "cat.jpg" default_prompt default_model 80
                 (Some "sk-arg"%string))
              (Host.answering (Some "A cat."%string))))
  = [Some "sk-arg"; None; None; None; None; None; None;
     Some "sk-arg"]%string.
Proof. vm_compute. reflexivity. Qed.

(* ------------------------------------------------------------------ *)
(** ** More on the encoder                                              *)
(* ------------------------------------------------------------------ *)

Section EncoderMore.
Import Base64.

(** Two sequences of bytes with the same encoding are the same. *)
Lemma b64encode_inj (a b : list byte) : b64encode a = b64encode b -> a = b.
Proof.
  intros H.
  assert (Hs : Some a = Some b)
    by now rewrite <- (b64decode_b64encode a), H, b64decode_b64encode.
  now injection Hs.
Qed.

Lemma string_of_list_byte_inj (a b : list byte) :
  string_of_list_byte a = string_of_list_byte b -> a = b.
Proof.
  intros H.
  now rewrite <- (list_byte_of_string_of_list_byte a), H,
    list_byte_of_string_of_list_byte.
Qed.

Lemma string_length_append (s t : string) :
  String.length (s ++ t)%string = String.length s + String.length t.
Proof.
  induction s as [|c s IH]; [reflexivity|].
  rewrite append_cons. cbn [String.length]. now rewrite IH.
Qed.

Lemma string_of_list_byte_length (l : list byte) :
  String.length (string_of_list_byte l) = List.length l.
Proof.
  induction l as [|b l IH]; [reflexivity|].
  cbn [List.length]. rewrite <- IH. reflexivity.
Qed.

(** Four characters for every three bytes, the last group padded. *)
Lemma b64encode_length (bs : list byte) :
  List.length (b64encode bs) = 4 * ((List.length bs + 2) / 3).
Proof.
  induction bs as [|a|a b|a b c l IH] using list_ind_by3;
    try reflexivity.
  change (b64encode (a :: b :: c :: l)) with (encode3 a b c ++ b64encode l).
  rewrite length_app, IH. cbn [List.length encode3].
  replace (S (S (S (List.length l))) + 2) with ((List.length l + 2) + 1 * 3)
    by lia.
  rewrite Nat.div_add by lia. lia.
Qed.

End EncoderMore.

(** X1.  When the guess for a regular file is an image type, the data
    URL carries that type, and the payload is the encoding of the bytes
    of the file. *)
Theorem encoder_keeps_image_type (w : World) (p : string)
    (data : list byte) (m : string) :
  files w !! p = Some (RegularFile data) ->
  fst (guess_type w p) = Some m ->
  Py.startswith m "image/" = true ->
  fst (run (_file_to_data_url p) w) =
    inr ("data:" ++ m ++ ";base64," ++
         string_of_list_byte (Base64.b64encode data))%string.
Proof.
  intros Hfile Hguess Himage. unfold run.
  rewrite (encoder_regular w p data) by assumption.
  cbn [fst]. unfold mime_or_png. now rewrite Hguess, Himage.
Qed.

Lemma encoder_keeps_image_type_witness :
  fst (run (_file_to_data_url "/srv/app/soccer.webp")
           (Pitch.world Host.with_key Host.failing_remote)) =
    inr ("data:" ++ "image/webp" ++ ";base64," ++
         string_of_list_byte (Base64.b64encode Pitch.webp_bytes))%string.
Proof.
  apply (encoder_keeps_image_type
           (Pitch.world Host.with_key Host.failing_remote)
           "/srv/app/soccer.webp" Pitch.webp_bytes "image/webp").
  - vm_compute. reflexivity.
  - vm_compute. reflexivity.
  - vm_compute. reflexivity.
Defined.

(** X2.  The data URL determines the content: when the encoder returns
    the same URL for a path on two hosts that guess the same type for
    it, the two files hold the same bytes. *)
Theorem encoder_injective (w1 w2 : World) (p : string)
    (data1 data2 : list byte) :
  files w1 !! p = Some (RegularFile data1) ->
  files w2 !! p = Some (RegularFile data2) ->
  fst (guess_type w1 p) = fst (guess_type w2 p) ->
  fst (run (_file_to_data_url p) w1) = fst (run (_file_to_data_url p) w2) ->
  data1 = data2.
Proof.
  intros H1 H2 Hguess. unfold run.
  rewrite (encoder_regular w1 p data1), (encoder_regular w2 p data2)
    by assumption.
  cbn [fst]. rewrite Hguess. intros [= Heq].
  apply b64encode_inj, string_of_list_byte_inj.
  now repeat apply String.app_inj in Heq.
Qed.

Lemma encoder_injective_witness :
  Pitch.webp_bytes = Pitch.webp_bytes.
Proof.
  apply (encoder_injective
           (Pitch.world Host.with_key Host.failing_remote)
           (Pitch.world Host.without_key Pitch.rate_limited)
           "/srv/app/soccer.webp").
  - vm_compute. reflexivity.
  - vm_compute. reflexivity.
  - vm_compute. reflexivity.
  - vm_compute. reflexivity.
Defined.

(** X3.  The length of the data URL of a regular file of [n] bytes: the
    13 characters of [data:] and [;base64,], the type, and four
    characters for every group of three bytes, the last group padded. *)
Theorem encoder_url_length (w : World) (p : string) (data : list byte) :
  files w !! p = Some (RegularFile data) ->
  exists url,
    fst (run (_file_to_data_url p) w) = inr url /\
    String.length url =
      13 + String.length (mime_or_png (fst (guess_type w p)))
         + 4 * ((List.length data + 2) / 3).
Proof.
  intros Hfile. unfold run.
  rewrite (encoder_regular w p data) by assumption.
  eexists. split; [reflexivity|].
  rewrite !string_length_append, string_of_list_byte_length,
    b64encode_length.
  cbn [String.length]. lia.
Qed.

Lemma encoder_url_length_witness :
  exists url,
    fst (run (_file_to_data_url "/srv/app/soccer.webp")
             (Pitch.world Host.with_key Host.failing_remote)) = inr url /\
    String.length url =
      13 + String.length
             (mime_or_png
                (fst (guess_type (Pitch.world Host.with_key Host.failing_remote)
                        "/srv/app/soccer.webp")))
         + 4 * ((List.length Pitch.webp_bytes + 2) / 3).
Proof.
  apply (encoder_url_length
           (Pitch.world Host.with_key Host.failing_remote)
           "/srv/app/soccer.webp" Pitch.webp_bytes).
  vm_compute. reflexivity.
Defined.

(** X4.  Whatever the path names, the encoder touches nothing but that
    path: every event of its run is a test, a guess or a read on the
    path it was given, and the file is read at most once. *)
Theorem encoder_touches_only_its_path (w : World) (p : string) :
  Forall (fun ev => encoder_path ev = Some p)
         (snd (run (_file_to_data_url p) w)) /\
  count_events is_read_bytes (snd (run (_file_to_data_url p) w)) <= 1 /\
  (count_events is_read_bytes (snd (run (_file_to_data_url p) w)) = 1 <->
   exists data, files w !! p = Some (RegularFile data)).
Proof.
  unfold run.
  destruct (files w !! p) as [[data|]|] eqn:H;
    [rewrite (encoder_regular w p data) by assumption
    |rewrite (encoder_directory w p) by assumption
    |rewrite (encoder_missing w p) by assumption];
    cbn [snd app]; (split; [repeat constructor|]);
    (split; [cbv; lia|]);
    cbv [count_events List.filter is_read_bytes List.length];
    split; try discriminate; eauto.
  - intros (data & Hd). discriminate Hd.
  - intros (data & Hd). discriminate Hd.
Qed.

(* ------------------------------------------------------------------ *)
(** ** More on the caption requester                                    *)
(* ------------------------------------------------------------------ *)

Section StripMore.
Import Py.

Lemma lstrip_fixed (s : string) :
  starts_with_space s = false -> lstrip s = s.
Proof. destruct s as [|c s]; [reflexivity|]. cbn. now intros ->. Qed.

Lemma rstrip_fixed (s : string) :
  ends_with_space s = false -> rstrip s = s.
Proof.
  induction s as [|c s IH]; [reflexivity|].
  destruct s as [|d s].
  - cbn. now intros ->.
  - intros H. change (ends_with_space (String d s) = false) in H.
    cbn [rstrip] in IH |- *. rewrite (IH H). reflexivity.
Qed.

(** Stripping a stripped string changes nothing. *)
Lemma strip_idempotent (s : string) : strip (strip s) = strip s.
Proof.
  destruct (strip_spec s) as (l & r & _ & _ & _ & Hhead & Hlast).
  unfold strip at 1.
  now rewrite (lstrip_fixed _ Hhead), (rstrip_fixed _ Hlast).
Qed.

(** A string of whitespace strips to the empty string. *)
Lemma strip_all_space (s : string) : all_space s = true -> strip s = ""%string.
Proof.
  unfold strip. induction s as [|c s IH]; [reflexivity|].
  cbn [all_space lstrip]. intros [Hc Hs]%andb_true_iff.
  rewrite Hc. now apply IH.
Qed.

End StripMore.

Section EnvironmentFacts.
Variable w : World.
Variable env : gmap string string.



End EnvironmentFacts.








(** X8.  With a key, and a normalized path that is no regular file, the
    call raises the [FileNotFoundError] that names the normalized path
    (not the spelling it was given).  The client has been built by then,
    but no file was read and no request is sent. *)
Theorem caption_missing_file (w : World)
    (image_path prompt model : string) (max_output_tokens : Z)
    (api_key : option string) (k : string) :
  resolved_key w api_key = Some k -> Py.truthy (Some k) = true ->
  (files w !! normal_path w image_path = None \/
   files w !! normal_path w image_path = Some Directory) ->
  fst (run (caption image_path prompt model max_output_tokens api_key) w) =
    inl (FileNotFoundError
           ("Image not found: " ++ normal_path w image_path)%string) /\
  In (ClientInit k)
     (snd (run (caption image_path prompt model max_output_tokens api_key) w))
  /\
  existsb is_read_bytes
    (snd (run (caption image_path prompt model max_output_tokens api_key) w))
    = false /\
  sent (snd (run (caption image_path prompt model max_output_tokens api_key) w))
    = [].
Proof.
  intros Hk Ht Hfile.
  rewrite (caption_with_credentials w _ _ _ _ api_key k Hk Ht).
  cbv zeta. unfold run.
  destruct Hfile as [H|H];
    [rewrite (encoder_missing w _ _ H)|rewrite (encoder_directory w _ _ H)];
    cbn [fst snd]; unfold key_lookup; destruct (Py.truthy api_key);
    cbn [app In existsb is_read_bytes sent orb]; repeat split; tauto.
Qed.

Lemma caption_missing_file_witness :
  fst (run (caption "~/pics/nope.png" default_prompt default_model 80 None)
           Host.offline) =
    inl (FileNotFoundError "Image not found: /home/ann/pics/nope.png") /\
  In (ClientInit "sk-env")
     (snd (run (caption "~/pics/nope.png" default_prompt default_model 80 None)
               Host.offline)).
Proof.
  destruct (caption_missing_file Host.offline
              "~/pics/nope.png" default_prompt default_model 80 None "sk-env")
    as (Hraise & Hclient & _).
  - vm_compute. reflexivity.
  - reflexivity.
  - left. vm_compute. reflexivity.
  - split; [exact Hraise|exact Hclient].
Defined.

(** X9.  Whatever a call returns is stripped: stripping it again changes
    nothing, and it neither starts nor ends with whitespace. *)
Theorem caption_result_is_stripped (w : World)
    (image_path prompt model : string) (max_output_tokens : Z)
    (api_key : option string) (text : string) :
  fst (run (caption image_path prompt model max_output_tokens api_key) w)
    = inr text ->
  Py.strip text = text /\
  Py.starts_with_space text = false /\
  Py.ends_with_space text = false.
Proof.
  destruct (caption_cases w image_path prompt model max_output_tokens api_key)
    as [(_ & Hrun)
       |(k & _ & _ &
         [(_ & Hrun)|[(_ & Hrun)|(data & url & _ & _ & Hrun)]])];
    cbv zeta in Hrun; rewrite Hrun; cbn [fst]; try discriminate.
  destruct (remote w k _) as [e|resp]; [discriminate|].
  intros [= <-].
  destruct (strip_spec (or_empty (output_text resp)))
    as (l & r & _ & _ & _ & Hhead & Hlast).
  split; [apply strip_idempotent|now split].
Qed.

Lemma caption_result_is_stripped_witness :
  Py.strip "Two players chase the ball." = "Two players chase the ball."%string
  /\ Py.starts_with_space "Two players chase the ball." = false
  /\ Py.ends_with_space "Two players chase the ball." = false.
Proof.
  apply (caption_result_is_stripped
           (Pitch.world Host.with_key
              (Host.fixed_remote
                 (Some "   Two players chase the ball.  "%string)))
           "soccer.webp" default_prompt default_model 80 None
           "Two players chase the ball.").
  vm_compute. reflexivity.
Defined.

(** X10.  An answer that is whitespace only gives the empty string, as
    an answer without text does. *)
Theorem caption_whitespace_only_answer (w : World)
    (image_path prompt model : string) (max_output_tokens : Z)
    (api_key : option string)
    (k : string) (req : Request) (resp : Response) (t : string) :
  In (ResponsesCreate k req)
     (snd (run (caption image_path prompt model max_output_tokens api_key) w)) ->
  remote w k req = inr resp ->
  output_text resp = Some t ->
  Py.all_space t = true ->
  fst (run (caption image_path prompt model max_output_tokens api_key) w)
    = inr ""%string.
Proof.
  intros Hin Hremote Htext Hspace.
  destruct (caption_after_request w image_path prompt model
              max_output_tokens api_key k req Hin) as (_ & _ & _ & Hres).
  rewrite Hremote, Htext, or_empty_some in Hres.
  now rewrite strip_all_space in Hres.
Qed.

Lemma caption_whitespace_only_answer_witness :
  fst (run (caption "soccer.webp" default_prompt default_model 80 None)
           (Pitch.world Host.with_key
              (Host.fixed_remote (Some "   "%string))))
    = inr ""%string.
Proof.
  apply (caption_whitespace_only_answer
           (Pitch.world Host.with_key
              (Host.fixed_remote (Some "   "%string)))
           "soccer.webp" default_prompt default_model 80 None "sk-env"
           (caption_request default_prompt default_model 80
              "data:image/webp;base64,UklGRhoAAABXRUJQ")
           (mkResponse (Some "   "%string)) "   ").
  - vm_compute. repeat (first [left; reflexivity | right]).
  - vm_compute. reflexivity.
  - reflexivity.
  - vm_compute. reflexivity.
Defined.



(* ------------------------------------------------------------------ *)
(** ** [main] and the module run as a script                            *)
(* ------------------------------------------------------------------ *)

(** The call [main] makes. *)
Lemma main_unfold (w : World) (stdout : string) :
  main w stdout =
  match run (caption "soccer.webp" default_prompt default_model
               default_max_output_tokens None) w with
  | (inr text, tr) => (inr tt, tr, print text stdout)
  | (inl e, tr) => (inl e, tr, stdout)
  end.
Proof. reflexivity. Qed.

(** X12.  When the remote endpoint answers the request of [main], [main]
    returns, and what it wrote to standard output is the stripped answer
    and a line feed.  The request is the one for [soccer.webp] with the
    default prompt, the default model and 80 tokens, and its key is the
    value of [OPENAI_API_KEY] in the environment. *)
Theorem main_prints_answer (w : World) (stdout : string)
    (k : string) (req : Request) (resp : Response) :
  In (ResponsesCreate k req) (snd (fst (main w stdout))) ->
  remote w k req = inr resp ->
  fst (fst (main w stdout)) = inr tt /\
  snd (main w stdout) =
    (stdout ++ Py.strip (or_empty (output_text resp)) ++ newline)%string /\
  environ w !! "OPENAI_API_KEY"%string = Some k /\
  exists url,
    fst (run (_file_to_data_url (normal_path w "soccer.webp")) w) = inr url /\
    req = caption_request default_prompt default_model 80 url.
Proof.
  rewrite main_unfold.
  destruct (run (caption "soccer.webp" default_prompt default_model
                   default_max_output_tokens None) w) as [[e|text] tr] eqn:Hrun;
    cbn [fst snd]; intros Hin Hremote.
  - pose proof (caption_after_request w "soccer.webp" default_prompt
                  default_model default_max_output_tokens None k req) as H.
    rewrite Hrun in H. destruct (H Hin) as (_ & _ & _ & Hres).
    cbn [fst] in Hres. now rewrite Hremote in Hres.
  - pose proof (caption_after_request w "soccer.webp" default_prompt
                  default_model default_max_output_tokens None k req) as H.
    rewrite Hrun in H. destruct (H Hin) as (Hk & _ & Hurl & Hres).
    cbn [fst] in Hres. rewrite Hremote in Hres. injection Hres as ->.
    repeat split; [exact Hk|exact Hurl].
Qed.

Lemma main_prints_answer_witness :
  fst (fst (main (Pitch.world Host.with_key
                    (Host.fixed_remote
                       (Some " Two players chase the ball. "%string))) ""))
    = inr tt /\
  snd (main (Pitch.world Host.with_key
               (Host.fixed_remote
                  (Some " Two players chase the ball. "%string))) "")
    = ("" ++ "Two players chase the ball." ++ newline)%string.
Proof.
  destruct (main_prints_answer
              (Pitch.world Host.with_key
                 (Host.fixed_remote
                    (Some " Two players chase the ball. "%string)))
              "" "sk-env"
              (caption_request default_prompt default_model 80
                 "data:image/webp;base64,UklGRhoAAABXRUJQ")
              (mkResponse (Some " Two players chase the ball. "%string)))
    as (Hret & Hout & _).
  - vm_compute. repeat (first [left; reflexivity | right]).
  - vm_compute. reflexivity.
  - split; [exact Hret|exact Hout].
Defined.

(** X13.  [main] passes no key, so the environment is its only source:
    when [OPENAI_API_KEY] is unset or empty, [main] raises the
    [RuntimeError] for the missing key after reading the variable, and
    writes nothing. *)
Theorem main_without_key (w : World) (stdout : string) :
  environ w !! "OPENAI_API_KEY"%string = None \/
  environ w !! "OPENAI_API_KEY"%string = Some ""%string ->
  main w stdout =
    (inl (RuntimeError missing_key_message), [EnvGet "OPENAI_API_KEY"], stdout).
Proof.
  intros Henv. rewrite main_unfold.
  rewrite (caption_no_credentials w "soccer.webp" default_prompt
             default_model default_max_output_tokens None).
  - reflexivity.
  - unfold resolved_key. cbn [Py.truthy]. now destruct Henv as [->| ->].
Qed.

Lemma main_without_key_witness :
  main (Pitch.world Host.without_key Pitch.rate_limited) "$ "
  = (inl (RuntimeError missing_key_message), [EnvGet "OPENAI_API_KEY"],
     "$ "%string).
Proof.
  apply (main_without_key (Pitch.world Host.without_key Pitch.rate_limited)).
  left. vm_compute. reflexivity.
Defined.



Section Script.
Variable w : World.
Variable dotenv : gmap string string.

(** The environment after the import. *)
Lemma load_dotenv_lookup (name : string) :
  environ (load_dotenv dotenv w) !! name =
  match environ w !! name with
  | Some v => Some v
  | None => dotenv !! name
  end.
Proof.
  unfold load_dotenv, with_environ. cbn [environ].
  destruct (environ w !! name) as [v|] eqn:H.
  - now apply lookup_union_Some_l.
  - now apply lookup_union_r.
Qed.


End Script.





(** The script with the key of the [.env] file, computed. *)
Example script_with_dotenv_key :
  let '(outcome, tr, stdout) :=
    script Pitch.dotenv_key
      (Pitch.world Host.without_key
         (Host.fixed_remote (Some " Goal! "%string))) "" in
  outcome = inr tt /\
  map credential tr =
    [None; Some "sk-dotenv"; None; None; None; None; None; None;
     Some "sk-dotenv"]%string /\
  stdout = ("Goal!" ++ newline)%string.
Proof. vm_compute. repeat split. Qed.

(** X17.  An [OPENAI_API_KEY] that is exported empty hides the key of
    the [.env] file: the import leaves the variable as it is, and the
    script raises the [RuntimeError] for the missing key and writes
    nothing, whatever the file assigns. *)
Theorem script_empty_variable_hides_dotenv (w : World)
    (dotenv : gmap string string) (stdout : string) :
  environ w !! "OPENAI_API_KEY"%string = Some ""%string ->
  script dotenv w stdout =
    (inl (RuntimeError missing_key_message), [EnvGet "OPENAI_API_KEY"], stdout).
Proof.
  intros Henv. unfold script. rewrite main_unfold.
  rewrite (caption_no_credentials (load_dotenv dotenv w) "soccer.webp"
             default_prompt default_model default_max_output_tokens None).
  - reflexivity.
  - unfold resolved_key. cbn [Py.truthy].
    now rewrite load_dotenv_lookup, Henv.
Qed.

Lemma script_empty_variable_hides_dotenv_witness :
  script Pitch.dotenv_key
    (Pitch.world Host.with_empty_key (Host.fixed_remote (Some "Goal!"%string)))
    ""
  = (inl (RuntimeError missing_key_message), [EnvGet "OPENAI_API_KEY"],
     ""%string).
Proof.
  apply (script_empty_variable_hides_dotenv
           (Pitch.world Host.with_empty_key
              (Host.fixed_remote (Some "Goal!"%string)))
           Pitch.dotenv_key "").
  vm_compute. reflexivity.
Defined.
